(** * Meander Migration: the centerline migration script, embedded in Rocq

    A shallow embedding of [scripts/Meander Migration.js]: the nested
    coordinate flattening, the nearest-point migration estimator, the raster
    step that is meant to extract the medial axis, and the loop of [main]
    that pairs consecutive years.

    JavaScript numbers are IEEE-754 binary64 values; they are modelled by
    Rocq's primitive floats, which are the same format with the same
    round-to-nearest operations, so [NaN] and [Infinity] behave here as they
    do in the script. *)

From Stdlib Require Import String List ZArith Bool Floats Lia.
Import ListNotations.

(** ** JavaScript values and the numeric built-ins the script calls *)

Module JS.

Open Scope float_scope.

(** The two kinds of value the estimator's arithmetic meets: a number, or
    the [undefined] obtained by reading a property that does not exist. *)
Inductive value : Type :=
| Undefined
| Number (x : float).

(** [ToNumber]: [undefined] converts to [NaN]. *)
Definition ToNumber (v : value) : float :=
  match v with
  | Undefined => nan
  | Number x => x
  end.

(** [x[k]] for a primitive number [x]: the read goes to [Number.prototype],
    which has no indexed property, whatever [k] is. *)
Definition get_index (x : float) (k : nat) : value := Undefined.

(** [a - b] on values: both operands go through [ToNumber]. *)
Definition minus (a b : value) : float := ToNumber a - ToNumber b.

(** [Math.pow(base, 2)], the only exponent the script uses: the rounded
    square, which is [NaN] on [NaN]. *)
Definition Math_pow2 (base : float) : float := base * base.

Definition Math_sqrt (x : float) : float := sqrt x.

(** [Math.min(a, b)]: [NaN] if either argument is [NaN]; [-0] is below [+0]. *)
Definition Math_min (a b : float) : float :=
  if is_nan a || is_nan b then nan
  else if a <? b then a
  else if b <? a then b
  else match classify a with NZero => a | _ => b end.

(** An array length as a number. *)
Definition length_number {A : Type} (l : list A) : float :=
  of_uint63 (Uint63.of_Z (Z.of_nat (List.length l))).

(** [arr.includes(s)] on an array of strings. *)
Definition includes (arr : list string) (s : string) : bool :=
  existsb (String.eqb s) arr.

(** [arr[i]] on an array of numbers: [undefined] past the end. *)
Definition array_get (arr : list float) (i : nat) : value :=
  match nth_error arr i with
  | Some x => Number x
  | None => Undefined
  end.

(** [arr.slice(0, -1)]: everything but the last element. *)
Definition slice_0_minus1 {A : Type} (arr : list A) : list A :=
  firstn (List.length arr - 1) arr.

End JS.

(** ** Completions and the console *)

(** What a call can throw: the runtime's [TypeError] (a method called on
    [undefined]) and the two rejections named by the design document.  The
    script itself contains no [throw] statement. *)
Inductive Error : Type :=
| TypeError
| InvalidGeometryKind
| NonPositiveInterval.

Inductive completion (A : Type) : Type :=
| Normal (a : A)
| Throw (e : Error).

Arguments Normal {A} a.
Arguments Throw {A} e.

(** A line written by [console.log].  Number formatting ([toFixed], string
    concatenation) is kept symbolic. *)
Inductive log_line : Type :=
| LogText (s : string)
| LogYears (years : list float)
| LogMigrationRate (year_from year_to : JS.value) (rate : float).

(** A computation appends to the console and ends in a completion. *)
Definition js (A : Type) : Type := list log_line -> completion A * list log_line.

Definition ret {A : Type} (a : A) : js A := fun out => (Normal a, out).

Definition bind {A B : Type} (m : js A) (k : A -> js B) : js B :=
  fun out =>
    match m out with
    | (Normal a, out') => k a out'
    | (Throw e, out') => (Throw e, out')
    end.

Definition throw {A : Type} (e : Error) : js A := fun out => (Throw e, out).

Definition console_log (l : log_line) : js unit :=
  fun out => (Normal tt, out ++ [l]).

Definition run {A : Type} (m : js A) : completion A * list log_line := m [].

Declare Scope js_scope.
Delimit Scope js_scope with js.
Notation "x <- m ;; k" := (bind m (fun x => k))
  (at level 61, m at next level, right associativity) : js_scope.
Notation "m ;;; k" := (bind m (fun _ => k))
  (at level 61, right associativity) : js_scope.

(** ** Geometries and features *)

(** Coordinates as the client sees them: arbitrarily nested arrays whose
    leaves are numbers. *)
#[warnings="-register-all"] Inductive coords : Type :=
| Num (x : float)
| Arr (items : list coords).

Record Geometry : Type := { type : string; coordinates : coords }.

Record Feature : Type := { geometry : Geometry }.

(** ** [calculateMigrationRate] *)

Module Estimator.

Import JS.
Open Scope float_scope.

(** The inner [flatten(arr)] of [flattenCoords], with the shared
    [flatList] passed through.  A leaf is pushed; an array is entered.
    Called on something that is not an array, the loop bound
    [arr.length] is [undefined] and the body never runs. *)
Fixpoint flatten (arr : coords) (flatList : list float) : list float :=
  match arr with
  | Num _ => flatList
  | Arr items =>
      (fix loop (rest : list coords) (flatList : list float) : list float :=
         match rest with
         | [] => flatList
         | item :: rest' =>
             loop rest' (match item with
                         | Arr _ => flatten item flatList
                         | Num x => flatList ++ [x]
                         end)
         end) items flatList
  end.

Definition flattenCoords (c : coords) : list float := flatten c [].

(** The body of the inner loop: the distance between two entries of the
    flattened lists, read as if they were points. *)
Definition dist (point1 point2 : float) : float :=
  Math_sqrt (Math_pow2 (minus (get_index point2 0) (get_index point1 0))
             + Math_pow2 (minus (get_index point2 1) (get_index point1 1))).

(** The loop over [j]: the running minimum over [coords2]. *)
Fixpoint nearest (point1 : float) (coords2 : list float) (minDistance : float)
  : float :=
  match coords2 with
  | [] => minDistance
  | point2 :: rest => nearest point1 rest (Math_min minDistance (dist point1 point2))
  end.

(** The loop over [i]: one minimum pushed per entry of [coords1]. *)
Fixpoint each_point (coords1 coords2 : list float) (distances : list float)
  : list float :=
  match coords1 with
  | [] => distances
  | point1 :: rest =>
      each_point rest coords2 (distances ++ [nearest point1 coords2 infinity])
  end.

(** [distances.reduce(function(a, b) { return a + b; }, 0) / distances.length] *)
Definition average (distances : list float) : float :=
  fold_left (fun a b => a + b) distances 0 / length_number distances.

Definition line_types : list string := ["MultiLineString"; "LineString"]%string.

Definition calculateMigrationRate
  (centerline1 centerline2 : Feature) (timeInterval : float) : js float :=
  let geom1 := geometry centerline1 in
  let geom2 := geometry centerline2 in
  if negb (includes line_types (type geom1))
     || negb (includes line_types (type geom2))
  then
    (console_log (LogText "Input geometries must be LineString or MultiLineString")
     ;;; ret 0)%js
  else
    let coords1 := flattenCoords (coordinates geom1) in
    let coords2 := flattenCoords (coordinates geom2) in
    let distances := each_point coords1 coords2 [] in
    let averageDistance := average distances in
    let migrationRate := averageDistance / timeInterval in
    ret migrationRate.

End Estimator.

(** ** The estimator as the design document words it

    Section 4.3: flatten the points of the earlier polylines into P1 and of
    the later ones into P2, take for each point of P1 the least Euclidean
    distance to a point of P2, average, divide by the interval.  This second
    definition is what the source is compared with. *)

Module Spec.

Import JS.
Open Scope float_scope.

Definition point : Type := (float * float)%type.
Definition polyline : Type := list point.

Definition euclidean (p q : point) : float :=
  sqrt ((fst q - fst p) * (fst q - fst p) + (snd q - snd p) * (snd q - snd p)).

Definition nearest_neighbor (p : point) (P2 : list point) : float :=
  fold_left (fun m q => Math_min m (euclidean p q)) P2 infinity.

Definition mean (ds : list float) : float :=
  fold_left (fun a b => a + b) ds 0 / length_number ds.

Definition estimate (earlier later : list polyline) (time_interval : float) : float :=
  let P1 := concat earlier in
  let P2 := concat later in
  mean (map (fun p => nearest_neighbor p P2) P1) / time_interval.

End Spec.

(** ** Features built from point lists *)

Definition point_coords (p : Spec.point) : coords := Arr [Num (fst p); Num (snd p)].

Definition polyline_coords (pts : Spec.polyline) : coords := Arr (map point_coords pts).

Definition LineString (pts : Spec.polyline) : Feature :=
  {| geometry := {| type := "LineString"; coordinates := polyline_coords pts |} |}.

Definition MultiLineString (lines : list Spec.polyline) : Feature :=
  {| geometry := {| type := "MultiLineString";
                    coordinates := Arr (map polyline_coords lines) |} |}.

Definition Polygon (rings : list Spec.polyline) : Feature :=
  {| geometry := {| type := "Polygon"; coordinates := Arr (map polyline_coords rings) |} |}.

Definition line_like (f : Feature) : bool :=
  JS.includes Estimator.line_types (type (geometry f)).

(** ** Leaves of nested coordinates *)

(** Induction on nested coordinates, with the property carried over the
    items of an array. *)
Section CoordsInduction.

Variable P : coords -> Prop.
Hypothesis P_Num : forall x, P (Num x).
Hypothesis P_Arr : forall items, Forall P items -> P (Arr items).

Fixpoint coords_nested_ind (c : coords) : P c :=
  match c with
  | Num x => P_Num x
  | Arr items =>
      P_Arr items ((fix all (l : list coords) : Forall P l :=
                match l with
                | [] => Forall_nil P
                | c' :: l' => Forall_cons c' (coords_nested_ind c') (all l')
                end) items)
  end.

End CoordsInduction.

(** The numeric leaves of a nested array, depth first, left to right. *)
Fixpoint leaves (c : coords) : list float :=
  match c with
  | Num x => [x]
  | Arr items => flat_map leaves items
  end.

(** What [flatten] is called on: an array's leaves; nothing for a
    non-array. *)
Definition array_leaves (c : coords) : list float :=
  match c with
  | Num _ => []
  | Arr items => flat_map leaves items
  end.

(** The scalars of a list of points: x then y, point after point. *)
Definition scalars (pts : Spec.polyline) : list float :=
  flat_map (fun p => [fst p; snd p]) pts.

(** ** Rasters *)

Definition pixel : Type := (Z * Z)%type.

(** One band of an image: a value at each pixel, or nothing where the pixel
    is masked. *)
Definition Image : Type := pixel -> option float.

Module Raster.

Open Scope float_scope.

Definition unmasked (img : Image) (p : pixel) : bool :=
  match img p with Some _ => true | None => false end.

(** A pixel of a binary mask is foreground when it holds a non-zero value. *)
Definition foreground (img : Image) (p : pixel) : bool :=
  match img p with Some v => negb (v =? 0) | None => false end.

(** The offsets [-half .. half] along one axis. *)
Definition offsets (half : nat) : list Z :=
  map (fun k => (Z.of_nat k - Z.of_nat half)%Z) (seq 0 (2 * half + 1)).

(** The square window of [size] pixels a side centred on [p]. *)
Definition window (size : nat) (p : pixel) : list pixel :=
  let half := Nat.div size 2 in
  map (fun d => (fst p + fst d, snd p + snd d)%Z)
      (list_prod (offsets half) (offsets half)).

Definition max_opt (acc x : option float) : option float :=
  match acc, x with
  | None, _ => x
  | Some a, None => Some a
  | Some a, Some b => Some (if a <? b then b else a)
  end.

(** Modelled from the spec: [focal_max], an Earth Engine call.  Section
    4.1 step 3: the local maximum within a square window of the given
    size centred on the pixel. *)
Definition focal_max (size : nat) (img : Image) : Image :=
  fun p => fold_left max_opt (map img (window size p)) None.

(** Modelled from the spec: [gt], an Earth Engine call: 1 where the first
    image is strictly greater than the second, 0 elsewhere, masked where
    either is. *)
Definition gt (a b : Image) : Image :=
  fun p =>
    match a p, b p with
    | Some x, Some y => Some (if y <? x then 1 else 0)
    | _, _ => None
    end.

(** Modelled from the spec: [selfMask], an Earth Engine call: a pixel
    whose value is zero becomes masked. *)
Definition selfMask (img : Image) : Image :=
  fun p =>
    match img p with
    | Some v => if v =? 0 then None else Some v
    | None => None
    end.

End Raster.

(** ** Vectorization, as the design document describes it *)

Module Vectorizer.

Import Raster.
Open Scope float_scope.

Definition Z_to_float (z : Z) : float :=
  if (z <? 0)%Z then - of_uint63 (Uint63.of_Z (- z)) else of_uint63 (Uint63.of_Z z).

Definition adjacent8 (p q : pixel) : bool :=
  ((Z.abs (fst p - fst q) <=? 1) && (Z.abs (snd p - snd q) <=? 1))%Z.

(** Flood fill: the pixels of [rest] reachable from the frontier are moved
    into the component, in the order they are met. *)
Fixpoint grow (fuel : nat) (frontier component rest : list pixel)
  : list pixel * list pixel :=
  match fuel with
  | O => (component, rest)
  | S fuel' =>
      match frontier with
      | [] => (component, rest)
      | p :: frontier' =>
          let (near, far) := partition (adjacent8 p) rest in
          grow fuel' (frontier' ++ near) (component ++ near) far
      end
  end.

Fixpoint components (fuel : nat) (pixels : list pixel) : list (list pixel) :=
  match fuel with
  | O => []
  | S fuel' =>
      match pixels with
      | [] => []
      | p :: rest =>
          let (component, rest') := grow (S (length rest)) [p] [p] rest in
          component :: components fuel' rest'
      end
  end.

(** The centre of a pixel, in map units. *)
Definition pixel_center (scale : float) (p : pixel) : Spec.point :=
  (scale * (Z_to_float (fst p) + 0.5), scale * (Z_to_float (snd p) + 0.5)).

(** Components of fewer pixels are dropped as noise (the document
    recommends 3). *)
Definition min_component_pixels : nat := 3.

(** Modelled from the spec: [reduceToVectors], an Earth Engine call.
    Section 4.2: the unmasked pixels of the skeleton inside the region are
    grouped into 8-connected components, small components are dropped, and
    each remaining one gives a polyline of pixel centres. *)
Definition reduceToVectors (skeleton : Image) (region : list pixel) (scale : float)
  : list Spec.polyline :=
  let pixels := filter (unmasked skeleton) region in
  let kept := filter (fun c => min_component_pixels <=? length c)%nat
                     (components (length pixels) pixels) in
  map (map (pixel_center scale)) kept.

(** The distance from [p] to the line through [a] and [b]. *)
Definition perpendicular (p a b : Spec.point) : float :=
  let dx := fst b - fst a in
  let dy := snd b - snd a in
  let len := sqrt (dx * dx + dy * dy) in
  if len =? 0 then Spec.euclidean a p
  else abs (dx * (snd a - snd p) - (fst a - fst p) * dy) / len.

Fixpoint farthest (a b : Spec.point) (pts : list Spec.point) (i : nat)
  (best : nat * float) : nat * float :=
  match pts with
  | [] => best
  | p :: rest =>
      let d := perpendicular p a b in
      farthest a b rest (S i) (if snd best <? d then (i, d) else best)
  end.

(** The Douglas-Peucker pass: keep the farthest vertex when it lies
    beyond the tolerance and recurse on both sides of it. *)
Fixpoint douglas_peucker (fuel : nat) (tolerance : float) (pts : Spec.polyline)
  : Spec.polyline :=
  match fuel with
  | O => pts
  | S fuel' =>
      match pts with
      | a :: _ :: _ :: _ =>
          let b := last pts a in
          let (k, dmax) := farthest a b (removelast (tl pts)) 1 (O, 0) in
          if tolerance <? dmax
          then douglas_peucker fuel' tolerance (firstn (S k) pts)
               ++ tl (douglas_peucker fuel' tolerance (skipn k pts))
          else [a; b]
      | _ => pts
      end
  end.

(** Modelled from the spec: [simplify], an Earth Engine call.  Section
    4.2: every polyline goes through the simplification pass; the result
    is the multi-line feature of the epoch. *)
Definition simplify (lines : list Spec.polyline) (maxError : float) : Feature :=
  MultiLineString (map (fun l => douglas_peucker (length l) maxError l) lines).

End Vectorizer.

(** ** [extractCenterline] and [main] *)

(** A row of the exported table of migration rates. *)
Record row : Type := { Year1 : float; Year2 : JS.value; MigrationRate : JS.value }.

Definition start_year : float := 1995%float.
Definition end_year : float := 2025%float.
Definition time_interval : float := 10%float.

Section Script.

Import JS Raster Vectorizer.
Open Scope float_scope.

(** Earth Engine operations on which nothing is assumed:
    [image.morphology(op, radius)], [image.distance()], the pixels of
    [study_area] at the working scale, and the water mask of a year (the
    median composite passed through [createBinaryImage]). *)
Variable morphology : Image -> string -> nat -> Image.
Variable distance : Image -> Image.
Variable study_area : list pixel.
Variable binaryImage_of_year : float -> Image.

(** The raster half of [extractCenterline]: opening, distance transform,
    comparison with the focal maximum. *)
Definition centerline_raster (image : Image) : Image :=
  let eroded := morphology image "erode" 2 in
  let dilated := morphology eroded "dilate" 2 in
  let distance := distance dilated in
  selfMask (gt distance (focal_max 5 distance)).

Definition extractCenterline (image : Image) : Feature :=
  let centerline := centerline_raster image in
  let centerline_vector := reduceToVectors centerline study_area 30 in
  simplify centerline_vector 10.

(** Step 3.1: [for (year = start_year; year <= end_year; year += time_interval)].
    The loop need not end (a step of 0), hence the fuel. *)
Fixpoint years_from (fuel : nat) (year : float) (years : list float)
  : option (list float) :=
  match fuel with
  | O => None
  | S fuel' =>
      if year <=? end_year
      then years_from fuel' (year + time_interval) (years ++ [year])
      else Some years
  end.

(** The centerline of a year, as the body of the loop of step 3.3 computes
    it. *)
Definition centerline_of_year (year : float) : Feature :=
  extractCenterline (binaryImage_of_year year).

(** Step 3.3: one centerline pushed per year (the exports to Drive leave
    no trace in the values computed). *)
Fixpoint collect_centerlines (years : list float) (centerlines : list Feature)
  : list Feature :=
  match years with
  | [] => centerlines
  | year :: rest =>
      let binaryImage := binaryImage_of_year year in
      let centerline := extractCenterline binaryImage in
      collect_centerlines rest (centerlines ++ [centerline])
  end.

(** [centerlines[i]] followed by a method call: a [TypeError] when the
    index is out of range. *)
Definition centerline_at (centerlines : list Feature) (i : nat) : js Feature :=
  match nth_error centerlines i with
  | Some c => ret c
  | None => throw TypeError
  end.

(** Step 3.4: [for (i = 0; i < centerlines.length - 1; i++)], with
    [count] the number of rounds still to run. *)
Fixpoint rates_loop (years : list float) (centerlines : list Feature)
  (count i : nat) (migrationRates : list float) : js (list float) :=
  match count with
  | O => ret migrationRates
  | S count' =>
      (c1 <- centerline_at centerlines i ;;
       c2 <- centerline_at centerlines (i + 1) ;;
       rate <- Estimator.calculateMigrationRate c1 c2 time_interval ;;
       console_log (LogMigrationRate (array_get years i) (array_get years (i + 1)) rate) ;;;
       rates_loop years centerlines count' (S i) (migrationRates ++ [rate]))%js
  end.

(** [arr.map(function(x, index) {...})] *)
Fixpoint map_index {A B : Type} (f : A -> nat -> B) (arr : list A) (index : nat)
  : list B :=
  match arr with
  | [] => []
  | x :: rest => f x index :: map_index f rest (S index)
  end.

(** Step 3.5: the rows of the table. *)
Definition migrationRateData (years migrationRates : list float) : list row :=
  map_index (fun year index =>
               {| Year1 := year;
                  Year2 := array_get years (index + 1);
                  MigrationRate := array_get migrationRates index |})
            (slice_0_minus1 years) 0.

(** Steps 3.3 to 3.5 on a given list of years. *)
Definition main_on (years : list float) : js (list row) :=
  (console_log (LogYears years) ;;;
   let centerlines := collect_centerlines years [] in
   migrationRates <- rates_loop years centerlines (length centerlines - 1) 0 [] ;;
   ret (migrationRateData years migrationRates))%js.

(** [main], up to the table handed to the export. *)
Definition main (fuel : nat) : option (completion (list row) * list log_line) :=
  match years_from fuel start_year [] with
  | None => None
  | Some years => Some (run (main_on years))
  end.

End Script.

(** ** Outcomes, and the inputs used as examples *)

Definition rejects_with {A : Type} (e : Error) (r : completion A * list log_line) : Prop :=
  fst r = Throw e.

Definition returns {A : Type} (a : A) (r : completion A * list log_line) : Prop :=
  fst r = Normal a.

Module Sample.

Open Scope float_scope.

(** The scenario of the design document: two parallel segments, 5 apart. *)
Definition earlier : Spec.polyline := [(0, 0); (10, 0)].
Definition later : Spec.polyline := [(0, 5); (10, 5)].

(** A closed ring, as a polygon's coordinates hold it. *)
Definition ring : Spec.polyline := [(0, 0); (10, 0); (10, 10); (0, 0)].

Definition wrong_geometry_message : log_line :=
  LogText "Input geometries must be LineString or MultiLineString".

End Sample.

(** ** The raster operations, instantiated to run an example *)

Module Reference.

Import Raster.
Open Scope float_scope.

Definition binary (b : bool) : option float := Some (if b then 1 else 0).

(** Modelled from the spec: [image.morphology], an Earth Engine call.
    Section 4.1 step 1: an erosion keeps a pixel when its whole
    neighbourhood of the given radius is foreground, a dilation when some
    pixel of it is. *)
Definition morphology (image : Image) (op : string) (radius : nat) : Image :=
  fun p =>
    if String.eqb op "erode"
    then binary (forallb (foreground image) (window (2 * radius + 1) p))
    else if String.eqb op "dilate"
    then binary (existsb (foreground image) (window (2 * radius + 1) p))
    else image p.

Definition between (p q : pixel) : float :=
  Spec.euclidean (Vectorizer.Z_to_float (fst p), Vectorizer.Z_to_float (snd p))
                 (Vectorizer.Z_to_float (fst q), Vectorizer.Z_to_float (snd q)).

(** Modelled from the spec: [image.distance], an Earth Engine call.
    Section 4.1 step 2: for a foreground pixel, the Euclidean distance to
    the nearest background pixel of the grid; 0 on the background. *)
Definition distance (grid : list pixel) (image : Image) : Image :=
  fun p =>
    if foreground image p
    then Some (fold_left (fun m q => if foreground image q then m
                                     else JS.Math_min m (between p q))
                         grid infinity)
    else Some 0.

(** A grid of 9 by 9 pixels, and the mask of the 5 by 5 block in its
    middle. *)
Definition grid : list pixel :=
  list_prod (map Z.of_nat (seq 0 9)) (map Z.of_nat (seq 0 9)).

Definition block : Image :=
  fun p => binary ((2 <=? fst p) && (fst p <=? 6) && (2 <=? snd p) && (snd p <=? 6))%Z.

Definition opened_block : Image := morphology (morphology block "erode" 2) "dilate" 2.

(** The mask with no foreground pixel. *)
Definition all_false : Image := fun _ => Some 0.

End Reference.

(** ** Step 3.6 of [main]: the layers and the legends of the map *)

Module Display.

Import JS.

(** A layer name or legend label; the concatenation with a year is kept
    symbolic: ['Centerline ' + y] and ['Migration ' + y1 + '-' + y2]. *)
Inductive name : Type :=
| StudyAreaName
| CenterlineName (year : value)
| MigrationName (year_from year_to : value).

(** What [map.addLayer] receives besides the object drawn: the colour of
    the visualisation parameters, if any, and the name. *)
Record layer : Type := { vis_color : option string; layer_name : name }.

(** [for (i = 0; i < years.length; i++) map.addLayer(centerlines[i], ...)] *)
Definition centerline_layers (years : list float) : list layer :=
  map (fun i => {| vis_color := Some (if Nat.eqb i 0 then "red" else "blue")%string;
                   layer_name := CenterlineName (array_get years i) |})
      (seq 0 (length years)).

(** [for (i = 0; i < centerlines.length - 1; i++) map.addLayer(migrationFeature, ...)] *)
Definition migration_layers (years : list float) (centerlines : list Feature)
  : list layer :=
  map (fun i => {| vis_color := Some "green"%string;
                   layer_name := MigrationName (array_get years i)
                                               (array_get years (i + 1)) |})
      (seq 0 (length centerlines - 1)).

Definition layers (years : list float) (centerlines : list Feature) : list layer :=
  {| vis_color := None; layer_name := StudyAreaName |}
    :: centerline_layers years ++ migration_layers years centerlines.

(** [Array(n).fill(v)]: a [RangeError] ([None]) when [n] is negative. *)
Definition Array_fill {A : Type} (n : Z) (v : A) : option (list A) :=
  if (n <? 0)%Z then None else Some (repeat v (Z.to_nat n)).

Record legend : Type := { title : string; labels : list name; colors : list string }.

(** The argument of the first [map.add_legend]. *)
Definition centerlines_legend (years : list float) : option legend :=
  let labels := map (fun year => CenterlineName (Number year)) years in
  match Array_fill (Z.of_nat (length years) - 1) "blue"%string with
  | None => None
  | Some blues =>
      Some {| title := "Centerlines"; labels := labels;
              colors := ["red"%string] ++ blues |}
  end.

(** The argument of the second [map.add_legend]. *)
Definition migration_legend (years migrationRates : list float) : legend :=
  {| title := "Migration";
     labels := map_index (fun (_ : float) i =>
                            MigrationName (array_get years i) (array_get years (i + 1)))
                         migrationRates 0;
     colors := ["green"%string] |}.

End Display.

(** ** Notions used to state what the loops compute *)

(** The pairs of neighbours of a list, in order. *)
Definition consecutive {A : Type} (l : list A) : list (A * A) := combine l (tl l).

(** The first [n] years of the loop of step 3.1 started at [year], and the
    year reached after them. *)
Fixpoint progression (n : nat) (year : float) : list float :=
  match n with
  | O => []
  | S n' => year :: progression n' (year + time_interval)%float
  end.

Fixpoint advance (n : nat) (year : float) : float :=
  match n with
  | O => year
  | S n' => advance n' (year + time_interval)%float
  end.

(** A number that is [NaN], [Infinity] or [-Infinity]. *)
Definition not_finite (r : float) : bool :=
  match classify r with
  | NaN | PInf | NInf => true
  | _ => false
  end.

(** * Properties *)

(** ** A few facts on binary64 arithmetic *)

Module FloatFacts.

Open Scope float_scope.

Lemma nan_div (y : float) : nan / y = nan.
Proof. apply Prim2SF_inj. rewrite div_spec. reflexivity. Qed.

Lemma Math_min_nan_r (a : float) : JS.Math_min a nan = nan.
Proof. unfold JS.Math_min. rewrite orb_true_r. reflexivity. Qed.

(** Adding up a list that holds nothing but [v], where [0 + v = v] and
    [v + v = v] (the case of [NaN] and of [Infinity]). *)
Lemma sum_absorbing (v : float) (n : nat) :
  0 + v = v -> v + v = v ->
  fold_left (fun a b => a + b) (repeat v (S n)) 0 = v.
Proof.
  intros H0 Hv. simpl. rewrite H0.
  induction n as [|n IH]; simpl; [reflexivity|].
  rewrite Hv. exact IH.
Qed.

End FloatFacts.

(** ** Flattening *)

Lemma flatten_appends (c : coords) :
  forall flatList, Estimator.flatten c flatList = flatList ++ array_leaves c.
Proof.
  induction c as [x | items IH] using coords_nested_ind; intro flatList.
  - simpl. now rewrite app_nil_r.
  - simpl. revert flatList.
    induction IH as [| c rest Hc _ IHrest]; intro flatList.
    + simpl. now rewrite app_nil_r.
    + rewrite IHrest. destruct c as [x | sub].
      * simpl. now rewrite <- app_assoc.
      * rewrite Hc. simpl. now rewrite <- app_assoc.
Qed.

Lemma flattenCoords_array_leaves (c : coords) :
  Estimator.flattenCoords c = array_leaves c.
Proof. unfold Estimator.flattenCoords. now rewrite flatten_appends. Qed.

Lemma leaves_polyline (pts : Spec.polyline) :
  flat_map leaves (map point_coords pts) = scalars pts.
Proof.
  induction pts as [| p pts IH]; simpl; [reflexivity|].
  now rewrite IH.
Qed.

Lemma scalars_length (pts : Spec.polyline) :
  length (scalars pts) = 2 * length pts.
Proof. induction pts as [| p pts IH]; simpl; [reflexivity | rewrite IH; lia]. Qed.

(** ** The two loops of the estimator *)

Module Loops.

Import JS Estimator FloatFacts.
Open Scope float_scope.

(** Whatever the two entries are, [point[0]] and [point[1]] are read on
    numbers, so the distance is [sqrt(NaN + NaN)]. *)
Lemma dist_is_nan (point1 point2 : float) : dist point1 point2 = nan.
Proof. reflexivity. Qed.

Lemma nearest_from_nan (point1 : float) (coords2 : list float) :
  nearest point1 coords2 nan = nan.
Proof.
  induction coords2 as [| point2 rest IH]; simpl; [reflexivity|].
  rewrite dist_is_nan. exact IH.
Qed.

Lemma nearest_nonempty (point1 : float) (coords2 : list float) (m : float) :
  coords2 <> [] -> nearest point1 coords2 m = nan.
Proof.
  destruct coords2 as [| point2 rest]; [congruence|]. intros _. simpl.
  rewrite dist_is_nan, Math_min_nan_r. apply nearest_from_nan.
Qed.

Lemma each_point_map (coords1 coords2 distances : list float) :
  each_point coords1 coords2 distances
  = distances ++ map (fun point1 => nearest point1 coords2 infinity) coords1.
Proof.
  revert distances.
  induction coords1 as [| point1 rest IH]; intro distances; simpl.
  - now rewrite app_nil_r.
  - rewrite IH. now rewrite <- app_assoc.
Qed.

Lemma each_point_nonempty (coords1 coords2 : list float) :
  coords2 <> [] ->
  each_point coords1 coords2 [] = repeat nan (length coords1).
Proof.
  intro H. rewrite each_point_map. simpl.
  induction coords1 as [| point1 rest IH]; simpl; [reflexivity|].
  rewrite nearest_nonempty by assumption. now rewrite IH.
Qed.

Lemma each_point_nothing_later (coords1 : list float) :
  each_point coords1 [] [] = repeat infinity (length coords1).
Proof.
  rewrite each_point_map. simpl.
  induction coords1 as [| point1 rest IH]; simpl; [reflexivity|].
  now rewrite IH.
Qed.

Lemma average_nans (n : nat) : average (repeat nan (S n)) = nan.
Proof.
  unfold average. rewrite sum_absorbing by reflexivity. apply nan_div.
Qed.

Lemma average_infinities (n : nat) :
  average (repeat infinity (S n)) = infinity / length_number (repeat infinity (S n)).
Proof. unfold average. now rewrite sum_absorbing by reflexivity. Qed.

(** The rate on line-like features: no console output, no exception. *)
Lemma rate_of_lines (c1 c2 : Feature) (t : float) :
  line_like c1 = true -> line_like c2 = true ->
  run (calculateMigrationRate c1 c2 t)
  = (Normal (average (each_point (array_leaves (coordinates (geometry c1)))
                                 (array_leaves (coordinates (geometry c2))) [])
             / t), []).
Proof.
  unfold line_like, calculateMigrationRate. intros -> ->. simpl.
  now rewrite !flattenCoords_array_leaves.
Qed.

(** With an entry on each side, every distance is [NaN] and so is the rate. *)
Lemma rate_nan (c1 c2 : Feature) (t : float) :
  line_like c1 = true -> line_like c2 = true ->
  array_leaves (coordinates (geometry c1)) <> [] ->
  array_leaves (coordinates (geometry c2)) <> [] ->
  run (calculateMigrationRate c1 c2 t) = (Normal nan, []).
Proof.
  intros L1 L2 N1 N2. rewrite rate_of_lines by assumption.
  rewrite each_point_nonempty by assumption.
  destruct (array_leaves (coordinates (geometry c1))) as [| x l]; [congruence|].
  simpl length. rewrite average_nans. now rewrite nan_div.
Qed.

End Loops.

(** ** The estimator: what a call returns *)

Module EstimatorClaims.

Import JS Estimator FloatFacts Loops.
Open Scope float_scope.

Lemma rate_nan_flat (c1 c2 : Feature) (t : float) :
  line_like c1 = true -> line_like c2 = true ->
  flattenCoords (coordinates (geometry c1)) <> [] ->
  flattenCoords (coordinates (geometry c2)) <> [] ->
  run (calculateMigrationRate c1 c2 t) = (Normal nan, []).
Proof. rewrite !flattenCoords_array_leaves. apply rate_nan. Qed.

(** C1 (the code departs from the claim).  On the scenario of the design
    document, earlier = [(0,0), (10,0)], later = [(0,5), (10,5)] and an
    interval of 5, the script returns NaN, where the estimator as the
    document words it returns exactly 1. *)
Theorem scenario_rate_is_nan :
  run (calculateMigrationRate (LineString Sample.earlier) (LineString Sample.later) 5)
  = (Normal nan, [])
  /\ Spec.estimate [Sample.earlier] [Sample.later] 5 = 1.
Proof. split; reflexivity. Qed.

(** C2, as stated, fails: handed a polygon, the estimator is not
    rejected with InvalidGeometryKind; it returns the rate 0. *)
Lemma polygon_is_not_rejected :
  let r := run (calculateMigrationRate (Polygon [Sample.ring])
                                       (LineString Sample.later) 10) in
  line_like (Polygon [Sample.ring]) = false
  /\ returns 0 r
  /\ ~ rejects_with InvalidGeometryKind r.
Proof. cbv zeta. repeat split. unfold rejects_with. simpl. discriminate. Qed.

(** C2, amended.  Whenever one of the two geometries is neither a
    LineString nor a MultiLineString, the estimator writes
    "Input geometries must be LineString or MultiLineString" to the
    console and returns the rate 0; nothing is thrown. *)
Theorem wrong_geometry_logs_and_returns_zero (c1 c2 : Feature) (t : float) :
  line_like c1 = false \/ line_like c2 = false ->
  run (calculateMigrationRate c1 c2 t) = (Normal 0, [Sample.wrong_geometry_message]).
Proof.
  unfold line_like, calculateMigrationRate.
  intros [H | H]; rewrite H; simpl; [reflexivity|].
  now rewrite orb_true_r.
Qed.

Lemma wrong_geometry_logs_and_returns_zero_witness :
  line_like (Polygon [Sample.ring]) = false
  /\ run (calculateMigrationRate (Polygon [Sample.ring]) (LineString Sample.later) 10)
     = (Normal 0, [Sample.wrong_geometry_message]).
Proof.
  split; [reflexivity|].
  apply wrong_geometry_logs_and_returns_zero. left. reflexivity.
Defined.

(** C3, as stated, fails: with an interval of 0 nothing is rejected.  The
    call returns a number: NaN on the scenario's two lines, Infinity when
    the later line has no point. *)
Lemma zero_interval_is_not_rejected :
  let r := run (calculateMigrationRate (LineString Sample.earlier)
                                       (LineString Sample.later) 0) in
  (0 <=? 0) = true
  /\ returns nan r
  /\ ~ rejects_with NonPositiveInterval r
  /\ returns infinity
       (run (calculateMigrationRate (LineString Sample.earlier) (LineString []) 0)).
Proof. cbv zeta. repeat split. unfold rejects_with. simpl. discriminate. Qed.

(** C3, amended.  The estimator has no check on the interval: called with
    time_interval <= 0 it throws nothing and returns a number, namely 0
    (after the console message) when a geometry is not line-like, and
    otherwise the binary64 quotient of the average distance by the
    interval. *)
Theorem nonpositive_interval_returns_quotient (c1 c2 : Feature) (t : float) :
  (t <=? 0) = true ->
  run (calculateMigrationRate c1 c2 t)
  = if line_like c1 && line_like c2
    then (Normal (average (each_point (flattenCoords (coordinates (geometry c1)))
                                      (flattenCoords (coordinates (geometry c2))) [])
                  / t), [])
    else (Normal 0, [Sample.wrong_geometry_message]).
Proof.
  intros _. unfold line_like, calculateMigrationRate.
  destruct (includes line_types (type (geometry c1)));
    destruct (includes line_types (type (geometry c2))); reflexivity.
Qed.

Lemma nonpositive_interval_returns_quotient_witness :
  (-5 <=? 0) = true
  /\ run (calculateMigrationRate (LineString Sample.earlier) (LineString []) (-5))
     = (Normal neg_infinity, []).
Proof.
  split; [reflexivity|].
  rewrite (@nonpositive_interval_returns_quotient
             (LineString Sample.earlier) (LineString []) (-5) eq_refl).
  reflexivity.
Defined.

(** C5, as stated, fails: with an interval of 5 and an earlier set that
    holds no polyline, the rate is NaN, not 0; with a later set that holds
    none, it is Infinity.  The result is a bare number: there is no flag. *)
Lemma empty_set_rate_is_not_zero :
  let r := run (calculateMigrationRate (MultiLineString [])
                                       (LineString Sample.later) 5) in
  (0 <? 5) = true
  /\ flattenCoords (coordinates (geometry (MultiLineString []))) = []
  /\ returns nan r
  /\ ~ returns 0 r
  /\ returns infinity
       (run (calculateMigrationRate (LineString Sample.earlier) (MultiLineString []) 5)).
Proof.
  cbv zeta. repeat split. unfold returns. simpl. intro H.
  apply (f_equal (fun c => match c with Normal x => is_nan x | Throw _ => false end)) in H.
  discriminate H.
Qed.

(** C5, amended.  Called with time_interval > 0 on line-like geometries of
    which one has no coordinates, the estimator throws nothing and returns
    a bare number, with no degenerate flag, and that number is not 0: it
    is NaN (0/0 over the interval) when the earlier set is empty, and
    Infinity divided by the number of entries of the earlier list and by
    the interval when only the later set is empty. *)
Theorem empty_set_rate (c1 c2 : Feature) (t : float) :
  line_like c1 = true -> line_like c2 = true -> (0 <? t) = true ->
  (flattenCoords (coordinates (geometry c1)) = [] ->
   run (calculateMigrationRate c1 c2 t) = (Normal nan, []))
  /\ (flattenCoords (coordinates (geometry c1)) <> [] ->
      flattenCoords (coordinates (geometry c2)) = [] ->
      run (calculateMigrationRate c1 c2 t)
      = (Normal (infinity / length_number (flattenCoords (coordinates (geometry c1))) / t),
         [])).
Proof.
  intros L1 L2 _. rewrite (rate_of_lines c1 c2 t L1 L2), !flattenCoords_array_leaves.
  split.
  - intros ->. simpl. change (average []) with nan. now rewrite nan_div.
  - intros N1 ->. rewrite each_point_nothing_later.
    destruct (array_leaves (coordinates (geometry c1))) as [| x l]; [congruence|].
    simpl length. rewrite average_infinities.
    unfold length_number. now rewrite repeat_length.
Qed.

Lemma empty_set_rate_witness :
  run (calculateMigrationRate (MultiLineString []) (LineString Sample.later) 5)
  = (Normal nan, [])
  /\ run (calculateMigrationRate (LineString Sample.earlier) (MultiLineString []) 5)
     = (Normal infinity, []).
Proof.
  split.
  - apply (proj1 (@empty_set_rate (MultiLineString []) (LineString Sample.later) 5
                    eq_refl eq_refl eq_refl)).
    reflexivity.
  - apply (proj2 (@empty_set_rate (LineString Sample.earlier) (MultiLineString []) 5
                    eq_refl eq_refl eq_refl)).
    + discriminate.
    + reflexivity.
Defined.

(** C6 (the code departs from the claim).  Called with the same line-like
    feature as earlier and later set, holding at least one coordinate, the
    script returns NaN whatever the interval: the rate is not 0. *)
Theorem identical_sets_rate_is_nan (c : Feature) (t : float) :
  line_like c = true ->
  flattenCoords (coordinates (geometry c)) <> [] ->
  exists rate,
    run (calculateMigrationRate c c t) = (Normal rate, [])
    /\ is_nan rate = true /\ (rate =? 0) = false.
Proof.
  intros L N. exists nan. rewrite rate_nan_flat by assumption.
  repeat split.
Qed.

Lemma identical_sets_rate_is_nan_witness :
  exists rate,
    run (calculateMigrationRate (LineString Sample.earlier)
                                (LineString Sample.earlier) 10) = (Normal rate, [])
    /\ is_nan rate = true /\ (rate =? 0) = false.
Proof.
  apply identical_sets_rate_is_nan; [reflexivity | discriminate].
Defined.

(** C9 (the code departs from the claim).  Under the preconditions
    (positive interval, both geometries line-like and holding coordinates)
    the script returns NaN: not a non-negative number. *)
Theorem rate_under_preconditions_is_nan (c1 c2 : Feature) (t : float) :
  (0 <? t) = true ->
  line_like c1 = true -> line_like c2 = true ->
  flattenCoords (coordinates (geometry c1)) <> [] ->
  flattenCoords (coordinates (geometry c2)) <> [] ->
  exists rate,
    run (calculateMigrationRate c1 c2 t) = (Normal rate, [])
    /\ is_nan rate = true /\ (0 <=? rate) = false.
Proof.
  intros _ L1 L2 N1 N2. exists nan. rewrite rate_nan_flat by assumption.
  repeat split.
Qed.

Lemma rate_under_preconditions_is_nan_witness :
  exists rate,
    run (calculateMigrationRate (LineString Sample.earlier)
                                (MultiLineString [Sample.later; Sample.ring]) 5)
    = (Normal rate, [])
    /\ is_nan rate = true /\ (0 <=? rate) = false.
Proof.
  apply rate_under_preconditions_is_nan;
    [reflexivity | reflexivity | reflexivity | discriminate | discriminate].
Defined.

(** C10.  [flattenCoords] returns the numeric leaves of a nested array in
    depth-first, left-to-right order.  On the coordinates of a polyline of
    n points it returns the 2n scalars x1, y1, ..., xn, yn, not n pairs;
    the estimator's loops run over these scalars, on which [point[0]] and
    [point[1]] are undefined. *)
Theorem flattenCoords_yields_scalars :
  (forall items : list coords, flattenCoords (Arr items) = flat_map leaves items)
  /\ (forall pts : Spec.polyline,
        flattenCoords (polyline_coords pts) = scalars pts
        /\ length (flattenCoords (polyline_coords pts)) = (2 * length pts)%nat)
  /\ (forall (pts1 pts2 : Spec.polyline) (t : float),
        run (calculateMigrationRate (LineString pts1) (LineString pts2) t)
        = (Normal (average (each_point (scalars pts1) (scalars pts2) []) / t), []))
  /\ (forall point1 point2 : float,
        get_index point1 0 = Undefined /\ get_index point1 1 = Undefined
        /\ dist point1 point2 = nan).
Proof.
  assert (Hpoly : forall pts, flattenCoords (polyline_coords pts) = scalars pts).
  { intro pts. rewrite flattenCoords_array_leaves. apply leaves_polyline. }
  split; [intro items; apply flattenCoords_array_leaves|].
  split; [intro pts; rewrite Hpoly; split; [reflexivity | apply scalars_length]|].
  split; [| intros; repeat split].
  intros pts1 pts2 t.
  rewrite rate_of_lines by reflexivity.
  simpl coordinates. now rewrite <- !flattenCoords_array_leaves, !Hpoly.
Qed.

End EstimatorClaims.

(** ** The order of binary64 numbers *)

Module FloatOrder.

Open Scope float_scope.

Lemma SFltb_irrefl (x : spec_float) : SFltb x x = false.
Proof.
  unfold SFltb, SFcompare.
  destruct x as [s | s | | s m e]; try destruct s; try reflexivity;
    rewrite Z.compare_refl; fold (Pos.compare m m);
    rewrite Pos.compare_refl; reflexivity.
Qed.

Lemma SFltb_trans (x y z : spec_float) :
  SFltb x y = true -> SFltb y z = true -> SFltb x z = true.
Proof.
  unfold SFltb, SFcompare.
  destruct x as [sx | sx | | sx mx ex]; destruct y as [sy | sy | | sy my ey];
    destruct z as [sz | sz | | sz mz ez];
    try destruct sx; try destruct sy; try destruct sz;
    try reflexivity; try discriminate.
  all: fold (Pos.compare mx my); fold (Pos.compare my mz); fold (Pos.compare mx mz).
  all: destruct (Z.compare_spec ex ey); destruct (Z.compare_spec ey ez);
    destruct (Z.compare_spec ex ez); try lia; try reflexivity; try discriminate.
  all: destruct (Pos.compare_spec mx my); destruct (Pos.compare_spec my mz);
    destruct (Pos.compare_spec mx mz); try lia; try reflexivity; try discriminate.
Qed.

Lemma ltb_irrefl (x : float) : (x <? x) = false.
Proof. rewrite ltb_spec. apply SFltb_irrefl. Qed.

Lemma ltb_trans (x y z : float) :
  (x <? y) = true -> (y <? z) = true -> (x <? z) = true.
Proof. rewrite !ltb_spec. apply SFltb_trans. Qed.

(** Nothing above [y] lies below something that is not above [x]. *)
Lemma not_ltb_climb (x y v : float) :
  (x <? v) = false -> (x <? y) = true -> (y <? v) = false.
Proof.
  intros Hxv Hxy. destruct (y <? v) eqn:Hyv; [|reflexivity].
  rewrite (ltb_trans _ _ _ Hxy Hyv) in Hxv. discriminate.
Qed.

End FloatOrder.

(** ** The focal maximum and the comparison with it *)

Module RasterFacts.

Import Raster FloatOrder.
Open Scope float_scope.

Lemma offsets_has_zero (half : nat) : In 0%Z (offsets half).
Proof.
  unfold offsets. apply in_map_iff. exists half. split; [lia|].
  apply in_seq. lia.
Qed.

Lemma window_has_center (size : nat) (p : pixel) : In p (window size p).
Proof.
  unfold window. apply in_map_iff. exists (0, 0)%Z. split.
  - destruct p as [x y]. simpl. f_equal; lia.
  - apply in_prod; apply offsets_has_zero.
Qed.

Lemma max_opt_keeps (acc x : option float) (M v : float) :
  acc = Some M -> (M <? v) = false ->
  exists M', max_opt acc x = Some M' /\ (M' <? v) = false.
Proof.
  intros -> HM. destruct x as [b|]; simpl; [| now exists M].
  destruct (M <? b) eqn:HMb.
  - exists b. split; [reflexivity|]. now apply not_ltb_climb with M.
  - now exists M.
Qed.

Lemma max_opt_adds (acc : option float) (v : float) :
  exists M, max_opt acc (Some v) = Some M /\ (M <? v) = false.
Proof.
  destruct acc as [a|]; simpl.
  - destruct (a <? v) eqn:Hav.
    + exists v. split; [reflexivity | apply ltb_irrefl].
    + now exists a.
  - exists v. split; [reflexivity | apply ltb_irrefl].
Qed.

Lemma fold_max_keeps (values : list (option float)) (v : float) :
  forall (acc : option float) (M : float),
    acc = Some M -> (M <? v) = false ->
    exists M', fold_left max_opt values acc = Some M' /\ (M' <? v) = false.
Proof.
  induction values as [| x values IH]; intros acc M Hacc HM; simpl.
  - now exists M.
  - destruct (max_opt_keeps _ x _ _ Hacc HM) as (M' & E & HM').
    now apply IH with M'.
Qed.

Lemma fold_max_reaches (values : list (option float)) (v : float) :
  In (Some v) values ->
  forall acc, exists M, fold_left max_opt values acc = Some M /\ (M <? v) = false.
Proof.
  induction values as [| x values IH]; intros Hin acc; [contradiction|].
  simpl. destruct Hin as [-> | Hin].
  - destruct (max_opt_adds acc v) as (M & E & HM).
    now apply fold_max_keeps with M.
  - now apply IH.
Qed.

(** The focal maximum at an unmasked pixel is never below the pixel's own
    value: the window holds the pixel. *)
Lemma focal_max_dominates (size : nat) (img : Image) (p : pixel) (v : float) :
  img p = Some v ->
  exists M, focal_max size img p = Some M /\ (M <? v) = false.
Proof.
  intro Hp. unfold focal_max. apply fold_max_reaches.
  rewrite <- Hp. apply in_map. apply window_has_center.
Qed.

(** Hence an image is nowhere strictly greater than its own focal
    maximum, and masking the zeros leaves nothing. *)
Lemma gt_own_focal_max_masked (size : nat) (img : Image) (p : pixel) :
  selfMask (gt img (focal_max size img)) p = None.
Proof.
  unfold selfMask, gt. destruct (img p) as [v|] eqn:Hp; [|reflexivity].
  destruct (focal_max_dominates size img p _ Hp) as (M & -> & ->).
  reflexivity.
Qed.

End RasterFacts.

(** ** The centerline raster and its vectorization *)

Section CenterlineFacts.

Import Raster Vectorizer.
Open Scope float_scope.

Variable morphology : Image -> string -> nat -> Image.
Variable distance : Image -> Image.
Variable study_area : list pixel.

(** Whatever the opening and the distance transform compute, the
    comparison [distance.gt(distance.focal_max(...))] holds nowhere. *)
Lemma centerline_raster_never_marks (image : Image) (p : pixel) :
  centerline_raster morphology distance image p = None.
Proof. unfold centerline_raster. apply RasterFacts.gt_own_focal_max_masked. Qed.

Lemma components_nil (fuel : nat) : components fuel [] = [].
Proof. destruct fuel; reflexivity. Qed.

Lemma reduceToVectors_nothing (skeleton : Image) (region : list pixel) (scale : float) :
  (forall p, skeleton p = None) -> reduceToVectors skeleton region scale = [].
Proof.
  intro H. unfold reduceToVectors.
  assert (E : filter (unmasked skeleton) region = []).
  { induction region as [| p region IH]; simpl; [reflexivity|].
    unfold unmasked at 1. now rewrite H. }
  rewrite E. reflexivity.
Qed.

(** C8.  On a mask with no foreground pixel the raster of the centerline
    has no pixel; the vectorization of a raster with no pixel is the empty
    set of polylines; both are plain values, no error is involved.  So
    [extractCenterline] returns the multi-line feature with no line. *)
Theorem empty_mask_gives_no_centerline (image : Image) :
  (forall p, foreground image p = false) ->
  (forall p, centerline_raster morphology distance image p = None)
  /\ (forall (skeleton : Image) (region : list pixel) (scale maxError : float),
        (forall p, skeleton p = None) ->
        reduceToVectors skeleton region scale = []
        /\ simplify (reduceToVectors skeleton region scale) maxError
           = MultiLineString [])
  /\ extractCenterline morphology distance study_area image = MultiLineString [].
Proof.
  intros _. split; [apply centerline_raster_never_marks|]. split.
  - intros skeleton region scale maxError H.
    now rewrite reduceToVectors_nothing.
  - unfold extractCenterline.
    rewrite reduceToVectors_nothing; [reflexivity|].
    apply centerline_raster_never_marks.
Qed.

End CenterlineFacts.

Lemma empty_mask_gives_no_centerline_witness :
  (forall p, Raster.foreground Reference.all_false p = false)
  /\ extractCenterline Reference.morphology (Reference.distance Reference.grid)
       Reference.grid Reference.all_false
     = MultiLineString [].
Proof.
  assert (H : forall p, Raster.foreground Reference.all_false p = false)
    by (intro p; reflexivity).
  split; [exact H|].
  apply (empty_mask_gives_no_centerline Reference.morphology
           (Reference.distance Reference.grid) Reference.grid Reference.all_false H).
Defined.

(** C4 (the code departs from the claim).  Take the 5 by 5 block in a grid of
    9 by 9 pixels: the opening leaves it as it is, its centre is a
    foreground pixel at distance 3 from the background, and 3 is the maximum
    of the distance over the 5 by 5 window around it.  The pixel's value
    equals the local maximum, yet the script does not mark it. *)
Theorem ridge_pixel_is_not_marked :
  let d := Reference.distance Reference.grid Reference.opened_block in
  let centre := (4, 4)%Z in
  Raster.foreground Reference.opened_block centre = true
  /\ d centre = Some 3%float
  /\ Raster.focal_max 5 d centre = Some 3%float
  /\ centerline_raster Reference.morphology (Reference.distance Reference.grid)
       Reference.block centre = None.
Proof. vm_compute. repeat split. Qed.

(** ** The loop of [main] over consecutive years *)

Section MainFacts.

Import JS Estimator.
Local Open Scope nat_scope.

Variable morphology : Image -> string -> nat -> Image.
Variable distance : Image -> Image.
Variable study_area : list pixel.
Variable binaryImage_of_year : float -> Image.

Local Abbreviation centerline_of :=
  (centerline_of_year morphology distance study_area binaryImage_of_year).

Lemma collect_centerlines_map (years : list float) :
  forall centerlines,
    collect_centerlines morphology distance study_area binaryImage_of_year
      years centerlines
    = centerlines ++ map centerline_of years.
Proof.
  induction years as [| year rest IH]; intro centerlines; simpl.
  - now rewrite app_nil_r.
  - rewrite IH. now rewrite <- app_assoc.
Qed.

(** The estimator always completes, and the console it starts from has no
    bearing on the rate. *)
Lemma calculateMigrationRate_completes (c1 c2 : Feature) (t : float)
  (out : list log_line) :
  exists rate out',
    calculateMigrationRate c1 c2 t out = (Normal rate, out')
    /\ fst (run (calculateMigrationRate c1 c2 t)) = Normal rate.
Proof.
  unfold run, calculateMigrationRate.
  destruct (negb (includes line_types (type (geometry c1)))
            || negb (includes line_types (type (geometry c2)))).
  - eexists. eexists. split; reflexivity.
  - eexists. eexists. split; reflexivity.
Qed.

Lemma rates_loop_pairs (years : list float) (centerlines : list Feature) :
  forall count i migrationRates out,
    i + count <= length centerlines - 1 ->
    exists rates out',
      rates_loop years centerlines count i migrationRates out
      = (Normal (migrationRates ++ rates), out')
      /\ length rates = count
      /\ forall k c1 c2,
           k < count ->
           nth_error centerlines (i + k) = Some c1 ->
           nth_error centerlines (i + k + 1) = Some c2 ->
           exists rate,
             fst (run (calculateMigrationRate c1 c2 time_interval)) = Normal rate
             /\ nth_error rates k = Some rate.
Proof.
  induction count as [| count IH]; intros i migrationRates out Hle.
  - exists [], out. simpl. rewrite app_nil_r. repeat split. intros; lia.
  - simpl. unfold bind at 1. unfold centerline_at at 1.
    destruct (nth_error centerlines i) as [c1|] eqn:E1;
      [| apply nth_error_None in E1; lia].
    unfold ret at 1. unfold bind at 1. unfold centerline_at at 1.
    destruct (nth_error centerlines (i + 1)) as [c2|] eqn:E2;
      [| apply nth_error_None in E2; lia].
    unfold ret at 1. unfold bind at 1.
    destruct (calculateMigrationRate_completes c1 c2 time_interval out)
      as (rate & out1 & Erun & Erate).
    rewrite Erun. unfold bind at 1, console_log at 1.
    destruct (IH (S i) (migrationRates ++ [rate])
                 (out1 ++ [LogMigrationRate (array_get years i)
                                            (array_get years (i + 1)) rate]))
      as (rates & out' & Eloop & Hlen & Hpairs); [lia|].
    exists (rate :: rates), out'. split; [| split].
    + rewrite Eloop. now rewrite <- app_assoc.
    + simpl. now rewrite Hlen.
    + intros k d1 d2 Hk H1 H2. destruct k as [| k].
      * rewrite Nat.add_0_r in H1, H2.
        rewrite E1 in H1. rewrite E2 in H2.
        injection H1 as <-. injection H2 as <-.
        now exists rate.
      * simpl. apply Hpairs; [lia | |].
        -- now replace (S i + k)%nat with (i + S k)%nat by lia.
        -- now replace (S i + k + 1)%nat with (i + S k + 1)%nat by lia.
Qed.

Lemma map_index_length {A B : Type} (f : A -> nat -> B) (arr : list A) :
  forall index, length (map_index f arr index) = length arr.
Proof. induction arr as [| x arr IH]; intro index; simpl; [|rewrite IH]; reflexivity. Qed.

Lemma map_index_nth {A B : Type} (f : A -> nat -> B) (arr : list A) :
  forall index i x,
    nth_error arr i = Some x ->
    nth_error (map_index f arr index) i = Some (f x (index + i)%nat).
Proof.
  induction arr as [| a arr IH]; intros index i x H.
  - destruct i; discriminate.
  - destruct i as [| i]; simpl in *.
    + injection H as <-. now rewrite Nat.add_0_r.
    + rewrite (IH (S index) i x H). f_equal. f_equal. lia.
Qed.

Lemma slice_length {A : Type} (arr : list A) :
  length (slice_0_minus1 arr) = length arr - 1.
Proof. unfold slice_0_minus1. rewrite length_firstn. lia. Qed.

Lemma slice_nth {A : Type} (arr : list A) (i : nat) :
  i < length arr - 1 -> nth_error (slice_0_minus1 arr) i = nth_error arr i.
Proof.
  intro H. unfold slice_0_minus1. revert i H.
  generalize (length arr - 1) as n.
  induction arr as [| a arr IH]; intros n i H.
  - now rewrite firstn_nil.
  - destruct n as [| n]; [lia|]. destruct i as [| i]; simpl; [reflexivity|].
    apply IH. lia.
Qed.

Lemma main_on_pairs (years : list float) :
  exists rows out,
    run (main_on morphology distance study_area binaryImage_of_year years)
    = (Normal rows, out)
    /\ length rows = length years - 1
    /\ forall i y1 y2,
         nth_error years i = Some y1 ->
         nth_error years (i + 1) = Some y2 ->
         exists rate,
           fst (run (calculateMigrationRate (centerline_of y1) (centerline_of y2)
                                            time_interval)) = Normal rate
           /\ nth_error rows i
              = Some {| Year1 := y1; Year2 := Number y2; MigrationRate := Number rate |}.
Proof.
  unfold main_on, run. unfold bind at 1, console_log at 1.
  rewrite collect_centerlines_map. simpl app.
  destruct (rates_loop_pairs years (map centerline_of years)
              (length (map centerline_of years) - 1) 0 [] [LogYears years])
    as (rates & out' & Eloop & Hlen & Hpairs); [lia|].
  unfold bind at 1. rewrite Eloop. simpl app. unfold ret.
  rewrite length_map in Hlen, Hpairs.
  exists (migrationRateData years rates), out'. split; [reflexivity|]. split.
  - unfold migrationRateData. now rewrite map_index_length, slice_length.
  - intros i y1 y2 H1 H2.
    assert (Hi : i + 1 < length years) by (apply nth_error_Some; congruence).
    destruct (Hpairs i (centerline_of y1) (centerline_of y2)) as (rate & Hrate & Hnth).
    + lia.
    + simpl. now apply map_nth_error.
    + simpl. now apply map_nth_error.
    + exists rate. split; [exact Hrate|].
      unfold migrationRateData.
      rewrite (map_index_nth _ _ 0 i y1) by (rewrite slice_nth; [exact H1 | lia]).
      simpl. unfold array_get. now rewrite H2, Hnth.
Qed.

(** C7.  On a list of n >= 1 years, steps 3.3 to 3.5 of [main] end with a
    table of exactly n - 1 rows, in the order of the years: row i holds
    year i, year i + 1 and the rate computed from the centerlines of these
    two years.  With the script's own constants the years are 1995, 2005,
    2015 and 2025, and the table has the 3 rows 1995-2005, 2005-2015 and
    2015-2025. *)
Theorem main_pairs_consecutive_years :
  (forall years : list float,
      1 <= length years ->
      exists rows out,
        run (main_on morphology distance study_area binaryImage_of_year years)
        = (Normal rows, out)
        /\ Z.of_nat (length rows) = (Z.of_nat (length years) - 1)%Z
        /\ forall i y1 y2,
             nth_error years i = Some y1 ->
             nth_error years (i + 1) = Some y2 ->
             exists rate,
               fst (run (calculateMigrationRate (centerline_of y1) (centerline_of y2)
                                                time_interval)) = Normal rate
               /\ nth_error rows i
                  = Some {| Year1 := y1; Year2 := Number y2;
                            MigrationRate := Number rate |})
  /\ exists rows out,
       main morphology distance study_area binaryImage_of_year 5
       = Some (Normal rows, out)
       /\ length rows = 3
       /\ map (fun r => (Year1 r, Year2 r)) rows
          = [(1995, Number 2005); (2005, Number 2015); (2015, Number 2025)]%float.
Proof.
  split.
  - intros years Hn.
    destruct (main_on_pairs years) as (rows & out & Erun & Hlen & Hpairs).
    exists rows, out. split; [exact Erun|]. split; [lia | exact Hpairs].
  - unfold main.
    change (years_from 5 start_year [])
      with (Some [1995; 2005; 2015; 2025]%float).
    destruct (main_on_pairs [1995; 2005; 2015; 2025]%float)
      as (rows & out & Erun & Hlen & Hpairs).
    exists rows, out. split; [now rewrite Erun|]. split; [exact Hlen|].
    destruct (Hpairs 0 _ _ eq_refl eq_refl) as (r0 & _ & H0).
    destruct (Hpairs 1 _ _ eq_refl eq_refl) as (r1 & _ & H1).
    destruct (Hpairs 2 _ _ eq_refl eq_refl) as (r2 & _ & H2).
    destruct rows as [| a [| b [| c [| d rows]]]]; try discriminate Hlen.
    simpl in H0, H1, H2.
    injection H0 as ->. injection H1 as ->. injection H2 as ->.
    reflexivity.
Qed.

End MainFacts.

Lemma main_pairs_consecutive_years_witness :
  1 <= length [1995; 2005]%float
  /\ exists rows out,
       run (main_on Reference.morphology (Reference.distance Reference.grid)
                    Reference.grid (fun _ => Reference.block) [1995; 2005]%float)
       = (Normal rows, out)
       /\ Z.of_nat (length rows) = 1%Z.
Proof.
  split; [simpl; lia|].
  destruct (proj1 (main_pairs_consecutive_years Reference.morphology
                     (Reference.distance Reference.grid) Reference.grid
                     (fun _ => Reference.block))
                  [1995; 2005]%float (le_S 1 1 (le_n 1)))
    as (rows & out & Erun & Hlen & _).
  exists rows, out. split; [exact Erun | exact Hlen].
Defined.

(** * Further properties of the script *)

(** ** [flattenCoords] *)

Module FlattenFacts.

Import JS Estimator.

(** X1.  [flatten] only appends to the shared [flatList]: what the list
    held before the call is kept, in order, followed by what flattening the
    argument alone gives. *)
Theorem flatten_only_appends (arr : coords) (flatList : list float) :
  flatten arr flatList = flatList ++ flattenCoords arr.
Proof. now rewrite flatten_appends, flattenCoords_array_leaves. Qed.

Lemma flat_map_leaves_Num (l : list float) : flat_map leaves (map Num l) = l.
Proof. induction l as [| x l IH]; simpl; [reflexivity | now rewrite IH]. Qed.

(** X2.  An array that is already flat is returned as it is, so flattening
    twice changes nothing. *)
Theorem flattenCoords_idempotent :
  (forall l : list float, flattenCoords (Arr (map Num l)) = l)
  /\ (forall c : coords,
        flattenCoords (Arr (map Num (flattenCoords c))) = flattenCoords c).
Proof.
  assert (H : forall l, flattenCoords (Arr (map Num l)) = l).
  { intro l. rewrite flattenCoords_array_leaves. apply flat_map_leaves_Num. }
  split; [exact H | intro c; apply H].
Qed.

(** X3.  Brackets do not matter: the flattening of an array is the
    concatenation of the flattenings of its items (a number counting for
    itself), and it distributes over the concatenation of arrays.  Hence the
    lines of a MultiLineString are merged into one list of scalars, and a
    MultiLineString of one line flattens like the LineString of that line. *)
Theorem flattenCoords_merges_items :
  (forall items : list coords,
      flattenCoords (Arr items)
      = flat_map (fun item => match item with
                              | Num x => [x]
                              | Arr _ => flattenCoords item
                              end) items)
  /\ (forall items1 items2 : list coords,
        flattenCoords (Arr (items1 ++ items2))
        = flattenCoords (Arr items1) ++ flattenCoords (Arr items2))
  /\ (forall lines : list Spec.polyline,
        flattenCoords (coordinates (geometry (MultiLineString lines)))
        = flat_map scalars lines)
  /\ (forall pts : Spec.polyline,
        flattenCoords (coordinates (geometry (MultiLineString [pts])))
        = flattenCoords (coordinates (geometry (LineString pts)))).
Proof.
  assert (Hlines : forall lines : list Spec.polyline,
             flat_map leaves (map polyline_coords lines) = flat_map scalars lines).
  { induction lines as [| pts lines IH]; simpl; [reflexivity|].
    now rewrite IH, leaves_polyline. }
  split; [| split; [| split]].
  - intro items. rewrite flattenCoords_array_leaves. simpl.
    induction items as [| item items IH]; simpl; [reflexivity|].
    rewrite IH. destruct item; [reflexivity|].
    now rewrite flattenCoords_array_leaves.
  - intros items1 items2. rewrite !flattenCoords_array_leaves. simpl.
    apply flat_map_app.
  - intro lines. rewrite flattenCoords_array_leaves. apply Hlines.
  - intro pts. rewrite !flattenCoords_array_leaves. simpl.
    now rewrite app_nil_r.
Qed.

End FlattenFacts.

(** ** What the estimator's result depends on *)

Module EstimatorFacts.

Import JS Estimator FloatFacts Loops.
Open Scope float_scope.

(** The list of distances holds one and the same value per entry of the
    earlier list: [Infinity] when the later list is empty, [NaN] otherwise. *)
Lemma each_point_shape (coords1 coords2 : list float) :
  each_point coords1 coords2 []
  = repeat (match coords2 with [] => infinity | _ :: _ => nan end) (length coords1).
Proof.
  destruct coords2 as [| point2 rest].
  - apply each_point_nothing_later.
  - apply each_point_nonempty. discriminate.
Qed.

(** X4.  The rate does not depend on the coordinate values: two calls whose
    geometries have the same types, whose earlier lists flatten to the same
    number of entries and whose later lists are both empty or both
    non-empty return the same rate and write the same console lines. *)
Theorem rate_ignores_coordinate_values (c1 c2 c1' c2' : Feature) (t : float) :
  type (geometry c1) = type (geometry c1') ->
  type (geometry c2) = type (geometry c2') ->
  length (flattenCoords (coordinates (geometry c1)))
  = length (flattenCoords (coordinates (geometry c1'))) ->
  (flattenCoords (coordinates (geometry c2)) = []
   <-> flattenCoords (coordinates (geometry c2')) = []) ->
  run (calculateMigrationRate c1 c2 t) = run (calculateMigrationRate c1' c2' t).
Proof.
  intros T1 T2 Hlen Hempty. unfold calculateMigrationRate. rewrite T1, T2.
  destruct (negb (includes line_types (type (geometry c1')))
            || negb (includes line_types (type (geometry c2')))); [reflexivity|].
  cbv zeta. rewrite !each_point_shape, Hlen.
  destruct (flattenCoords (coordinates (geometry c2))) as [| x l];
    destruct (flattenCoords (coordinates (geometry c2'))) as [| x' l'];
    try reflexivity.
  - destruct Hempty as [H _]. specialize (H eq_refl). discriminate H.
  - destruct Hempty as [_ H]. specialize (H eq_refl). discriminate H.
Qed.

Lemma rate_ignores_coordinate_values_witness :
  run (calculateMigrationRate (LineString Sample.earlier) (LineString Sample.later) 5)
  = run (calculateMigrationRate (LineString Sample.later) (LineString Sample.ring) 5).
Proof.
  apply rate_ignores_coordinate_values; try reflexivity.
  split; discriminate.
Defined.

Lemma div_not_finite (x y : float) :
  not_finite x = true -> not_finite (x / y) = true.
Proof.
  unfold not_finite. rewrite !classify_spec, div_spec.
  unfold SF64classify, SF64div, SFclassify, SFdiv.
  destruct (Prim2SF x) as [sx | sx | | sx mx ex]; intro H.
  - destruct sx; discriminate H.
  - destruct (Prim2SF y) as [sy | sy | | sy my ey];
      destruct sx; try destruct sy; reflexivity.
  - reflexivity.
  - destruct sx; destruct (Z.eqb (Z.pos (digits2_pos mx)) prec); discriminate H.
Qed.

Lemma average_not_finite (coords1 coords2 : list float) :
  not_finite (average (each_point coords1 coords2 [])) = true.
Proof.
  rewrite each_point_shape.
  destruct coords1 as [| point1 rest]; [reflexivity|]. simpl length.
  destruct coords2 as [| point2 rest2].
  - rewrite average_infinities. now apply div_not_finite.
  - now rewrite average_nans.
Qed.

(** X5.  The estimator never returns a finite rate other than 0.  On two
    line-like geometries the rate is NaN, Infinity or -Infinity and nothing
    is written; otherwise the rate is 0 and the one console line is the
    message on the geometries. *)
Theorem rate_is_zero_or_not_finite (c1 c2 : Feature) (t : float) :
  exists rate out,
    run (calculateMigrationRate c1 c2 t) = (Normal rate, out)
    /\ if line_like c1 && line_like c2
       then not_finite rate = true /\ out = []
       else rate = 0 /\ out = [Sample.wrong_geometry_message].
Proof.
  unfold line_like, calculateMigrationRate.
  destruct (includes line_types (type (geometry c1)));
    destruct (includes line_types (type (geometry c2))); simpl;
    try (eexists; eexists; split; [reflexivity | split; reflexivity]).
  eexists. eexists. split; [reflexivity|]. split; [|reflexivity].
  apply div_not_finite. apply average_not_finite.
Qed.

End EstimatorFacts.

(** ** The years of step 3.1 *)

Module YearsFacts.

Open Scope float_scope.

(** X6.  When the loop of step 3.1 ends, the years pushed are the terms
    year, year + 10, year + 20, ... in order, behind what the list already
    held; each of them is at most [end_year]; the next term is not; and
    more fuel gives the same list. *)
Theorem years_from_progression (fuel : nat) :
  forall (year : float) (acc years : list float),
    years_from fuel year acc = Some years ->
    exists n : nat,
      (n < fuel)%nat
      /\ years = acc ++ progression n year
      /\ Forall (fun y => (y <=? end_year) = true) (progression n year)
      /\ (advance n year <=? end_year) = false
      /\ forall fuel' : nat, (fuel <= fuel')%nat -> years_from fuel' year acc = Some years.
Proof.
  induction fuel as [| fuel IH]; intros year acc years H; [discriminate H|].
  simpl in H. destruct (year <=? end_year) eqn:Hle.
  - destruct (IH _ _ _ H) as (n & Hn & -> & Hall & Hnext & Hmono).
    exists (S n). split; [lia|]. split; [now rewrite <- app_assoc|].
    split; [now constructor|]. split; [exact Hnext|].
    intros [| fuel'] Hf; [lia|]. simpl. rewrite Hle. apply Hmono. lia.
  - injection H as <-. exists O. split; [lia|].
    split; [now rewrite app_nil_r|]. split; [constructor|]. split; [exact Hle|].
    intros [| fuel'] Hf; [lia|]. simpl. now rewrite Hle.
Qed.

Lemma years_from_progression_witness :
  exists n : nat,
    (n < 5)%nat
    /\ [1995; 2005; 2015; 2025] = [] ++ progression n start_year
    /\ Forall (fun y => (y <=? end_year) = true) (progression n start_year)
    /\ (advance n start_year <=? end_year) = false
    /\ forall fuel' : nat,
        (5 <= fuel')%nat -> years_from fuel' start_year [] = Some [1995; 2005; 2015; 2025].
Proof. apply (years_from_progression 5 start_year [] [1995; 2005; 2015; 2025] eq_refl). Defined.

End YearsFacts.

(** ** The table of step 3.5 *)

Module TableFacts.

Import JS.
Local Open Scope nat_scope.

Lemma migrationRateData_nth (years migrationRates : list float) (i : nat) :
  nth_error (migrationRateData years migrationRates) i
  = match nth_error years i, nth_error years (i + 1) with
    | Some y1, Some y2 =>
        Some {| Year1 := y1; Year2 := Number y2;
                MigrationRate := array_get migrationRates i |}
    | _, _ => None
    end.
Proof.
  destruct (Nat.lt_ge_cases (i + 1) (length years)) as [Hin | Hout].
  - destruct (nth_error years i) as [y1|] eqn:E1;
      [| apply nth_error_None in E1; lia].
    destruct (nth_error years (i + 1)) as [y2|] eqn:E2;
      [| apply nth_error_None in E2; lia].
    unfold migrationRateData.
    rewrite (map_index_nth _ _ 0 i y1) by (rewrite slice_nth; [exact E1 | lia]).
    simpl. unfold array_get at 1. now rewrite E2.
  - assert (E : nth_error (migrationRateData years migrationRates) i = None).
    { apply nth_error_None. unfold migrationRateData.
      rewrite map_index_length, slice_length. lia. }
    rewrite E. apply nth_error_None in Hout. rewrite Hout.
    now destruct (nth_error years i).
Qed.

(** X7.  The table has one row less than there are years, whatever the
    list of rates holds.  Row i carries year i and year i + 1: its Year2 is
    never undefined.  Its MigrationRate is undefined exactly when the list
    of rates has no entry i. *)
Theorem migrationRateData_rows (years migrationRates : list float) :
  length (migrationRateData years migrationRates) = length years - 1
  /\ forall (i : nat) (r : row),
       nth_error (migrationRateData years migrationRates) i = Some r ->
       nth_error years i = Some (Year1 r)
       /\ (exists y2, nth_error years (i + 1) = Some y2 /\ Year2 r = Number y2)
       /\ (MigrationRate r = Undefined <-> length migrationRates <= i).
Proof.
  split.
  - unfold migrationRateData. now rewrite map_index_length, slice_length.
  - intros i r H. rewrite migrationRateData_nth in H.
    destruct (nth_error years i) as [y1|]; [| discriminate H].
    destruct (nth_error years (i + 1)) as [y2|]; [| discriminate H].
    injection H as <-. simpl. split; [reflexivity|]. split; [now exists y2|].
    unfold array_get. destruct (nth_error migrationRates i) as [x|] eqn:E.
    + split; [discriminate|]. intro Hle.
      apply nth_error_None in Hle. congruence.
    + split; [| reflexivity]. intros _. now apply nth_error_None.
Qed.

Lemma migrationRateData_rows_witness :
  nth_error [1995; 2005; 2015]%float 0 = Some 1995%float
  /\ (exists y2, nth_error [1995; 2005; 2015]%float (0 + 1) = Some y2
                 /\ Number 2005 = Number y2)
  /\ (Undefined = Undefined <-> length ([] : list float) <= 0).
Proof.
  apply (proj2 (migrationRateData_rows [1995; 2005; 2015]%float []) 0
               {| Year1 := 1995; Year2 := Number 2005; MigrationRate := Undefined |}
               eq_refl).
Defined.

End TableFacts.

(** ** [extractCenterline] and [main], end to end *)

Section EndToEnd.

Import JS Estimator.
Local Open Scope nat_scope.

Variable morphology : Image -> string -> nat -> Image.
Variable distance : Image -> Image.
Variable study_area : list pixel.
Variable binaryImage_of_year : float -> Image.

Lemma extractCenterline_no_line (image : Image) :
  extractCenterline morphology distance study_area image = MultiLineString [].
Proof.
  unfold extractCenterline.
  rewrite reduceToVectors_nothing; [reflexivity|].
  apply centerline_raster_never_marks.
Qed.

(** X8.  Whatever the water mask, and whatever the opening and the distance
    transform compute, [extractCenterline] returns the multi-line feature
    with no line, whose coordinates flatten to the empty list: the strict
    comparison with the focal maximum leaves no pixel to vectorize. *)
Theorem extractCenterline_is_constant (image : Image) :
  extractCenterline morphology distance study_area image = MultiLineString []
  /\ flattenCoords
       (coordinates (geometry (extractCenterline morphology distance study_area image)))
     = [].
Proof. rewrite extractCenterline_no_line. split; reflexivity. Qed.

Lemma collect_centerlines_empty (years : list float) :
  collect_centerlines morphology distance study_area binaryImage_of_year years []
  = repeat (MultiLineString []) (length years).
Proof.
  rewrite collect_centerlines_map. simpl.
  induction years as [| year rest IH]; simpl; [reflexivity|].
  unfold centerline_of_year at 1. now rewrite extractCenterline_no_line, IH.
Qed.

Lemma rates_loop_on_empty_centerlines (years : list float) (n : nat) :
  forall count i migrationRates out,
    i + count <= n - 1 ->
    rates_loop years (repeat (MultiLineString []) n) count i migrationRates out
    = (Normal (migrationRates ++ repeat nan count),
       out ++ map (fun k => LogMigrationRate (array_get years k)
                                             (array_get years (k + 1)) nan)
                  (seq i count)).
Proof.
  induction count as [| count IH]; intros i migrationRates out Hle.
  - simpl. now rewrite !app_nil_r.
  - simpl. unfold bind at 1, centerline_at at 1.
    rewrite nth_error_repeat by lia.
    unfold ret at 1, bind at 1, centerline_at at 1.
    rewrite nth_error_repeat by lia.
    unfold ret at 1, bind at 1.
    change (calculateMigrationRate (MultiLineString []) (MultiLineString [])
              time_interval out) with (Normal nan, out).
    unfold bind at 1, console_log at 1.
    rewrite IH by lia. now rewrite <- !app_assoc.
Qed.

Lemma consecutive_nth {A : Type} (l : list A) :
  forall i,
    nth_error (consecutive l) i
    = match nth_error l i, nth_error l (i + 1) with
      | Some a, Some b => Some (a, b)
      | _, _ => None
      end.
Proof.
  unfold consecutive.
  induction l as [| a l IH]; intro i.
  - now destruct i.
  - destruct l as [| b l].
    + destruct i as [| i]; simpl; [reflexivity|]. now destruct i.
    + destruct i as [| i]; [reflexivity|].
      change (nth_error (combine (a :: b :: l) (tl (a :: b :: l))) (S i))
        with (nth_error (combine (b :: l) (tl (b :: l))) i).
      rewrite IH. reflexivity.
Qed.

Lemma rows_of_nan_rates (years : list float) :
  migrationRateData years (repeat nan (length years - 1))
  = map (fun p => {| Year1 := fst p; Year2 := Number (snd p);
                     MigrationRate := Number nan |})
        (consecutive years).
Proof.
  apply nth_error_ext. intro i.
  rewrite TableFacts.migrationRateData_nth, nth_error_map, consecutive_nth.
  destruct (nth_error years i) as [y1|] eqn:E1; [| reflexivity].
  destruct (nth_error years (i + 1)) as [y2|] eqn:E2; [| reflexivity].
  simpl. unfold array_get. rewrite nth_error_repeat; [reflexivity|].
  assert (i + 1 < length years) by (apply nth_error_Some; congruence). lia.
Qed.

Lemma log_of_nan_rates (years : list float) :
  map (fun k => LogMigrationRate (array_get years k) (array_get years (k + 1)) nan)
      (seq 0 (length years - 1))
  = map (fun p => LogMigrationRate (Number (fst p)) (Number (snd p)) nan)
        (consecutive years).
Proof.
  apply nth_error_ext. intro i.
  rewrite !nth_error_map, nth_error_seq, consecutive_nth.
  destruct (Nat.ltb_spec i (length years - 1)) as [Hin | Hout].
  - destruct (nth_error years i) as [y1|] eqn:E1;
      [| apply nth_error_None in E1; lia].
    destruct (nth_error years (i + 1)) as [y2|] eqn:E2;
      [| apply nth_error_None in E2; lia].
    simpl. unfold array_get. now rewrite E1, E2.
  - assert (E : nth_error years (i + 1) = None) by (apply nth_error_None; lia).
    rewrite E. now destruct (nth_error years i).
Qed.

(** X9.  On any list of years and any water masks, steps 3.3 to 3.5 of
    [main] throw nothing and produce one row and one console line per pair
    of consecutive years, in order, and every migration rate is NaN: each
    centerline is the feature with no line, on which the estimator divides
    0 by 0. *)
Theorem main_on_rates_are_nan (years : list float) :
  run (main_on morphology distance study_area binaryImage_of_year years)
  = (Normal (map (fun p => {| Year1 := fst p; Year2 := Number (snd p);
                              MigrationRate := Number nan |})
                 (consecutive years)),
     LogYears years
       :: map (fun p => LogMigrationRate (Number (fst p)) (Number (snd p)) nan)
              (consecutive years)).
Proof.
  unfold main_on, run. unfold bind at 1, console_log at 1.
  rewrite collect_centerlines_empty, repeat_length.
  unfold bind. rewrite rates_loop_on_empty_centerlines by lia.
  unfold ret. simpl app.
  now rewrite rows_of_nan_rates, log_of_nan_rates.
Qed.

(** X12.  With the script's constants, once the loop over the years has
    the fuel for its five tests, [main] ends with the same table and the
    same console lines whatever the imagery: three rows, 1995-2005,
    2005-2015 and 2015-2025, each with the rate NaN. *)
Theorem main_table_is_fixed (fuel : nat) :
  5 <= fuel ->
  main morphology distance study_area binaryImage_of_year fuel
  = Some (Normal [ {| Year1 := 1995; Year2 := Number 2005; MigrationRate := Number nan |};
                   {| Year1 := 2005; Year2 := Number 2015; MigrationRate := Number nan |};
                   {| Year1 := 2015; Year2 := Number 2025; MigrationRate := Number nan |} ],
          [ LogYears [1995; 2005; 2015; 2025];
            LogMigrationRate (Number 1995) (Number 2005) nan;
            LogMigrationRate (Number 2005) (Number 2015) nan;
            LogMigrationRate (Number 2015) (Number 2025) nan ])%float.
Proof.
  intro H. unfold main.
  assert (E : years_from fuel start_year [] = Some [1995; 2005; 2015; 2025]%float).
  { destruct fuel as [| [| [| [| [| k]]]]]; try lia. reflexivity. }
  rewrite E. unfold main_on, run. unfold bind at 1, console_log at 1.
  rewrite collect_centerlines_empty, repeat_length.
  unfold bind. rewrite rates_loop_on_empty_centerlines by (simpl; lia).
  reflexivity.
Qed.

End EndToEnd.

Lemma main_table_is_fixed_witness :
  exists rows out,
    main Reference.morphology (Reference.distance Reference.grid) Reference.grid
         (fun _ => Reference.block) 5
    = Some (Normal rows, out)
    /\ map MigrationRate rows = [JS.Number nan; JS.Number nan; JS.Number nan].
Proof.
  eexists. eexists. split.
  - apply (main_table_is_fixed Reference.morphology
             (Reference.distance Reference.grid) Reference.grid
             (fun _ => Reference.block) 5).
    apply le_n.
  - reflexivity.
Defined.

(** ** The legends against the layers *)

Module DisplayFacts.

Import JS Display.
Local Open Scope nat_scope.

Lemma map_over_indices {B : Type} (g : value -> B) (l : list float) :
  map (fun i => g (array_get l i)) (seq 0 (length l))
  = map (fun x => g (Number x)) l.
Proof.
  apply nth_error_ext. intro i.
  rewrite !nth_error_map, nth_error_seq.
  destruct (Nat.ltb_spec i (length l)) as [Hin | Hout].
  - destruct (nth_error l i) as [x|] eqn:E; [| apply nth_error_None in E; lia].
    simpl. unfold array_get. now rewrite E.
  - apply nth_error_None in Hout. now rewrite Hout.
Qed.

Lemma later_layers_are_blue (m : nat) :
  forall start,
    1 <= start ->
    map (fun i => Some (if Nat.eqb i 0 then "red" else "blue")%string) (seq start m)
    = repeat (Some "blue"%string) m.
Proof.
  induction m as [| m IH]; intros start H; simpl; [reflexivity|].
  rewrite IH by lia. destruct start; [lia | reflexivity].
Qed.

Lemma map_Some_repeat {A : Type} (a : A) (m : nat) :
  map Some (repeat a m) = repeat (Some a) m.
Proof. induction m as [| m IH]; simpl; [reflexivity | now rewrite IH]. Qed.

(** X10.  With at least one year, the legend of the centerlines lists, in
    order, the name and the colour of every centerline layer added to the
    map: red for the first year, blue for the others.  With no year the
    legend cannot be built: [Array(-1)] is a RangeError. *)
Theorem centerlines_legend_matches_layers (years : list float) :
  (years = [] -> centerlines_legend years = None)
  /\ (years <> [] ->
      exists lg,
        centerlines_legend years = Some lg
        /\ labels lg = map layer_name (centerline_layers years)
        /\ map Some (colors lg) = map vis_color (centerline_layers years)).
Proof.
  split; [intros ->; reflexivity|].
  intro Hne. destruct years as [| year rest]; [congruence|].
  unfold centerlines_legend, Array_fill.
  destruct (Z.ltb_spec (Z.of_nat (length (year :: rest)) - 1) 0) as [Hneg | _];
    [simpl length in Hneg; lia|].
  replace (Z.to_nat (Z.of_nat (length (year :: rest)) - 1)) with (length rest)
    by (simpl length; lia).
  eexists. split; [reflexivity|]. simpl labels. simpl colors. split.
  - unfold centerline_layers. rewrite map_map. simpl layer_name.
    now rewrite (map_over_indices CenterlineName).
  - unfold centerline_layers. rewrite map_map. simpl vis_color.
    simpl. rewrite map_Some_repeat. f_equal.
    symmetry. apply later_layers_are_blue. lia.
Qed.

Lemma centerlines_legend_matches_layers_witness :
  exists lg,
    centerlines_legend [1995; 2005; 2015]%float = Some lg
    /\ labels lg = map layer_name (centerline_layers [1995; 2005; 2015]%float)
    /\ map Some (colors lg) = map vis_color (centerline_layers [1995; 2005; 2015]%float).
Proof.
  apply (proj2 (centerlines_legend_matches_layers [1995; 2005; 2015]%float)).
  discriminate.
Defined.

Lemma map_index_by_position {A B : Type} (f : nat -> B) (l : list A) :
  forall index, map_index (fun _ i => f i) l index = map f (seq index (length l)).
Proof.
  induction l as [| x l IH]; intro index; simpl; [reflexivity|].
  now rewrite IH.
Qed.

(** X11.  When there is one rate per pair of consecutive centerlines, the
    labels of the migration legend are, in order, the names of the
    migration layers added to the map.  The legend has a single colour, so
    it has as many colours as labels only when there are two centerlines. *)
Theorem migration_legend_matches_layers
  (years migrationRates : list float) (centerlines : list Feature) :
  length migrationRates = length centerlines - 1 ->
  labels (migration_legend years migrationRates)
  = map layer_name (migration_layers years centerlines)
  /\ (length (labels (migration_legend years migrationRates))
      = length (colors (migration_legend years migrationRates))
      <-> length centerlines = 2).
Proof.
  intro Hlen.
  assert (E : labels (migration_legend years migrationRates)
              = map layer_name (migration_layers years centerlines)).
  { unfold migration_legend, migration_layers. simpl labels.
    rewrite map_index_by_position, map_map, Hlen. reflexivity. }
  split; [exact E|].
  rewrite E. unfold migration_layers. rewrite !length_map, length_seq.
  simpl. lia.
Qed.

Lemma migration_legend_matches_layers_witness :
  labels (migration_legend [1995; 2005; 2015]%float [nan; nan]%float)
  = map layer_name
        (migration_layers [1995; 2005; 2015]%float
           (repeat (MultiLineString []) 3)).
Proof.
  apply (migration_legend_matches_layers [1995; 2005; 2015]%float [nan; nan]%float
           (repeat (MultiLineString []) 3) eq_refl).
Defined.

End DisplayFacts.
